(** * trol: the attribute binding ([trol/property.py]) over a remote store

    A shallow embedding of [Property], the descriptor that keeps a local
    cached copy of an attribute on its owner and synchronises it with a
    key of a remote key-value store.  Python objects become records, the
    owner's instance dictionary a finite map, the store client an
    interface with explicit state, and every method a computation in a
    state-and-exception monad over the owner. *)

From stdpp Require Import gmap strings list pretty.
From Stdlib.Strings Require Import Byte.
From Stdlib Require Import Ascii String ZArith.

Open Scope string_scope.

(** ** Python values *)

Abbreviation bytes := (list byte).

(** The values an attribute can hold.  [VNull] is the singleton
    [Property.null]; the test [v is self.null] is [is_null]. *)
Inductive PyVal : Type :=
  | VNull
  | VNone
  | VBool (b : bool)
  | VInt (z : Z)
  | VStr (s : string)
  | VBytes (bs : bytes).

Definition is_null (v : PyVal) : bool :=
  match v with VNull => true | _ => false end.

Definition is_none (v : PyVal) : bool :=
  match v with VNone => true | _ => false end.

(** Truth value of an object in a condition ([if v:], [v or w]). *)
Definition truthy (v : PyVal) : bool :=
  match v with
  | VNull => true
  | VNone => false
  | VBool b => b
  | VInt z => negb (z =? 0)%Z
  | VStr s => negb (String.eqb s "")
  | VBytes bs => match bs with [] => false | _ => true end
  end.

(** [getattr(obj, attr, dflt)] on an attribute that is present or not. *)
Definition getattr (attr : option PyVal) (dflt : PyVal) : PyVal :=
  match attr with Some v => v | None => dflt end.

(** [tmpl.format(args...)] for templates whose replacement fields are all
    the automatic field [{}]: each field takes the next argument; a field
    with no argument left is Python's IndexError, here [None]. *)
Fixpoint format (tmpl : string) (args : list string) : option string :=
  match tmpl with
  | EmptyString => Some EmptyString
  | String c rest =>
      match rest with
      | String d rest' =>
          if Ascii.eqb c "{"%char && Ascii.eqb d "}"%char then
            match args with
            | a :: args' => String.append a <$> format rest' args'
            | [] => None
            end
          else String c <$> format rest args
      | EmptyString => Some (String c EmptyString)
      end
  end.

(** ** The remote store *)

(** The client interface the binding consumes.  [get] answers bytes or
    nothing; [set], [delete] and [exists] answer a Python value that the
    binding returns as it is or tests for truth. *)
Class RemoteStore (S : Type) := {
  store_get : string -> S -> option bytes * S;
  store_set : string -> bytes -> S -> PyVal * S;
  store_delete : string -> S -> PyVal * S;
  store_exists : string -> S -> PyVal * S
}.

(** Calls made on the client, in order. *)
Inductive Call : Type :=
  | CGet (k : string)
  | CSet (k : string) (v : bytes)
  | CDelete (k : string)
  | CExists (k : string).

(** [obj.redis]: a store together with the record of the calls made. *)
Record Client (S : Type) := mkClient {
  db : S;
  calls : list Call
}.
Arguments mkClient {S} _ _.
Arguments db {S} _.
Arguments calls {S} _.

(** ** The owner *)

(** The holder object: its [key] (a string or None), the optional policy
    attributes, the client, and the rest of its instance dictionary, where
    the binding keeps the cached value under the mangled name. *)
Record Owner (S : Type) := mkOwner {
  obj_key : option string;
  obj_autocommit : option PyVal;
  obj_alwaysfetch : option PyVal;
  obj_redis : Client S;
  obj_dict : gmap string PyVal
}.
Arguments mkOwner {S} _ _ _ _ _.
Arguments obj_key {S} _.
Arguments obj_autocommit {S} _.
Arguments obj_alwaysfetch {S} _.
Arguments obj_redis {S} _.
Arguments obj_dict {S} _.

(** ** Computations on an owner *)

Inductive Exn : Type :=
  | RedisKeyError (k : string).

Inductive Res (A : Type) : Type :=
  | Ok (a : A)
  | Raise (e : Exn).
Arguments Ok {A} _.
Arguments Raise {A} _.

Definition M (S A : Type) : Type := Owner S -> Res A * Owner S.

Definition ret {S A} (a : A) : M S A := fun o => (Ok a, o).

Definition bind {S A B} (c : M S A) (k : A -> M S B) : M S B :=
  fun o =>
    match c o with
    | (Ok a, o') => k a o'
    | (Raise e, o') => (Raise e, o')
    end.

Definition raise {S A} (e : Exn) : M S A := fun o => (Raise e, o).

Definition gets {S A} (f : Owner S -> A) : M S A := fun o => (Ok (f o), o).

(** The two ways a method changes the owner. *)
Definition with_dict {S} (o : Owner S) (d : gmap string PyVal) : Owner S :=
  mkOwner (obj_key o) (obj_autocommit o) (obj_alwaysfetch o) (obj_redis o) d.

Definition with_redis {S} (o : Owner S) (c : Client S) : Owner S :=
  mkOwner (obj_key o) (obj_autocommit o) (obj_alwaysfetch o) c (obj_dict o).

(** [setattr(obj, attr, v)] *)
Definition setattr {S} (attr : string) (v : PyVal) : M S unit :=
  fun o => (Ok tt, with_dict o (<[attr := v]> (obj_dict o))).

(** A call on [obj.redis]: run the store operation, record the call. *)
Definition on_redis {S A} (c : Call) (op : S -> A * S) : M S A :=
  fun o =>
    let '(r, s) := op (db (obj_redis o)) in
    (Ok r, with_redis o (mkClient s (calls (obj_redis o) ++ [c]))).

Declare Scope py_scope.
Delimit Scope py_scope with py.
Notation "x <- c ;; k" := (bind c (fun x => k))
  (at level 100, c at next level, right associativity) : py_scope.
Notation "c ;;; k" := (bind c (fun _ => k))
  (at level 100, right associativity) : py_scope.
Open Scope py_scope.

(** ** The binding *)

Module Property.

Record t : Type := mk {
  name : string;
  autocommit : PyVal;
  alwaysfetch : PyVal;
  serialize : PyVal -> bytes;
  deserialize : bytes -> PyVal
}.

(** [Property.null] *)
Definition null : PyVal := VNull.

Definition mangle (name : string) : string :=
  default "" (format "_trol_property_{}" [name]).

Section Methods.
Context {S : Type} `{RemoteStore S}.
Variable self : t.

Definition set (value : PyVal) : M S unit :=
  setattr (mangle (name self)) value.

Definition value : M S PyVal :=
  attr <- gets (fun obj => obj_dict obj !! mangle (name self)) ;;
  match attr with
  | Some value => ret value
  | None => set null ;;; ret null
  end.

Definition key_of (obj : Owner S) : string :=
  match obj_key obj with
  | Some k => default "" (format "{}:{}" [k; name self])
  | None => name self
  end.

Definition key : M S string := gets key_of.

Definition fetch : M S PyVal :=
  k <- key ;;
  response <- on_redis (CGet k) (store_get k) ;;
  let value :=
    match response with
    | Some r => deserialize self r
    | None => null
    end in
  set value ;;;
  ret value.

Definition commit : M S PyVal :=
  value0 <- value ;;
  value1 <- value ;;
  if is_null value1 then ret (VBool true)
  else
    k <- key ;;
    on_redis (CSet k (serialize self value0)) (store_set k (serialize self value0)).

Definition delete : M S PyVal :=
  k <- key ;;
  ok <- on_redis (CDelete k) (store_delete k) ;;
  (if truthy ok then set VNone else ret tt) ;;;
  ret ok.

Definition exists_ : M S PyVal :=
  k <- key ;;
  on_redis (CExists k) (store_exists k).

Definition invalidate : M S unit := set null.

(** The policy tests of [__get__] and [__set__], as written there. *)
Definition alwaysfetch_test (obj : Owner S) : bool :=
  truthy (alwaysfetch self)
  || (is_none (alwaysfetch self)
      && truthy (getattr (obj_alwaysfetch obj) (VBool false))).

Definition autocommit_test (obj : Owner S) : bool :=
  truthy (autocommit self)
  || (is_none (autocommit self)
      && truthy (getattr (obj_autocommit obj) (VBool true))).

(** Read access on an instance ([obj] is not None). *)
Definition __get__ : M S PyVal :=
  value0 <- value ;;
  af <- gets alwaysfetch_test ;;
  value1 <- (if is_null value0 || af then fetch else ret value0) ;;
  if is_null value1 then
    k <- key ;;
    raise (RedisKeyError k)
  else ret value1.

Definition __set__ (value : PyVal) : M S unit :=
  set value ;;;
  ac <- gets autocommit_test ;;
  if ac then commit ;;; ret tt else ret tt.

End Methods.

End Property.

(** ** Construction of a binding *)

Module Instance.

Section Construction.
(** The type hints [typ] ranges over. *)
Variable Typ : Type.


(** The attributes of a [Property] object.  [_name] is None until a name
    is given, by the caller or by the metaclass. *)
Record t : Type := mk {
  _name : option string;
  autocommit : PyVal;
  alwaysfetch : PyVal;
  _typ : option Typ;
  serialize : PyVal -> bytes;
  deserialize : bytes -> PyVal
}.


(** The [name] property: its getter and its setter. *)
Definition name (self : t) : option string := _name self.

Definition set_name (self : t) (value : option string) : t :=
  mk value (autocommit self) (alwaysfetch self) (_typ self)
     (serialize self) (deserialize self).


End Construction.

End Instance.

(** ** Registration by the metaclass ([trol/database.py]) *)

Module DatabaseType.

(** An object bound in a class body, as far as the metaclass looks at
    it: the three [isinstance] tests ([Collection] and [ModelType] are
    defined outside this file), its [_name] and its [_trol_database].
    Objects and classes are referred to by address. *)
Record Attr : Type := mkAttr {
  is_Property : bool;
  is_Collection : bool;
  is_ModelType : bool;
  _name : option string;
  _trol_database : option nat
}.

(** The class under construction: the objects its attributes refer to,
    and the three registries. *)
Record Cls : Type := mkCls {
  objects : gmap nat Attr;
  _trol_properties : gmap string nat;
  _trol_collections : gmap string nat;
  _trol_models : gmap string nat
}.

(** [if attr._name is None: attr._name = attrname] *)
Definition name_if_unset (attrname : string) (attr : Attr) : Attr :=
  match _name attr with
  | None =>
      mkAttr (is_Property attr) (is_Collection attr) (is_ModelType attr)
             (Some attrname) (_trol_database attr)
  | Some _ => attr
  end.

(** [attr._trol_database = cls] *)
Definition set_database (cls : nat) (attr : Attr) : Attr :=
  mkAttr (is_Property attr) (is_Collection attr) (is_ModelType attr)
         (_name attr) (Some cls).

(** One turn of the loop over [cls.__dict__.items()]: the three tests in
    turn, each on the object as the test before left it. *)
Definition visit (cls : nat) (st : Cls) (item : string * nat) : Cls :=
  let '(attrname, addr) := item in
  let st1 :=
    match objects st !! addr with
    | Some attr =>
        if is_Property attr then
          mkCls (<[addr := name_if_unset attrname attr]> (objects st))
                (<[attrname := addr]> (_trol_properties st))
                (_trol_collections st) (_trol_models st)
        else st
    | None => st
    end in
  let st2 :=
    match objects st1 !! addr with
    | Some attr =>
        if is_Collection attr then
          mkCls (<[addr := set_database cls (name_if_unset attrname attr)]>
                   (objects st1))
                (_trol_properties st1)
                (<[attrname := addr]> (_trol_collections st1))
                (_trol_models st1)
        else st1
    | None => st1
    end in
  match objects st2 !! addr with
  | Some attr =>
      if is_ModelType attr then
        mkCls (<[addr := set_database cls attr]> (objects st2))
              (_trol_properties st2) (_trol_collections st2)
              (<[attrname := addr]> (_trol_models st2))
      else st2
  | None => st2
  end.

(** The body of [DatabaseType.__init__] up to its call of the parent's
    [__init__]: three empty registries, then the loop over the items of
    the class dictionary, in their order. *)
Definition register (cls : nat) (class_dict : list (string * nat))
    (heap : gmap nat Attr) : Cls :=
  fold_left (visit cls) class_dict (mkCls heap ∅ ∅ ∅).

(** What one visit under the name [attrname] does to the object
    visited. *)
Definition touch (cls : nat) (attrname : string) (attr : Attr) : Attr :=
  let a1 := if is_Property attr then name_if_unset attrname attr else attr in
  let a2 :=
    if is_Collection a1 then set_database cls (name_if_unset attrname a1)
    else a1 in
  if is_ModelType a2 then set_database cls a2 else a2.

(** The visits an object gets, one for each name it is bound under. *)
Definition touch_all (cls : nat) (names : list string) (attr : Attr) : Attr :=
  fold_left (fun a attrname => touch cls attrname a) names attr.

(** The names, in order, under which a class dictionary binds an
    address. *)
Definition names_of (addr : nat) (class_dict : list (string * nat)) : list string :=
  fst <$> filter (fun item => item.2 = addr) class_dict.

(** A test on an object that may not be there. *)
Definition has (test : Attr -> bool) (o : option Attr) : bool :=
  match o with
  | Some attr => test attr
  | None => false
  end.

End DatabaseType.

(** ** Observations used in the statements *)

(** The owner's slot for the binding, and the value [value] would see. *)
Definition slot {S} (self : Property.t) (obj : Owner S) : option PyVal :=
  obj_dict obj !! Property.mangle (Property.name self).

Definition cached {S} (self : Property.t) (obj : Owner S) : PyVal :=
  default Property.null (slot self obj).

(** The value [fetch] derives from the store's answer to [get]. *)
Definition fetched (self : Property.t) (response : option bytes) : PyVal :=
  match response with
  | Some r => Property.deserialize self r
  | None => Property.null
  end.

(** The policy resolution as the specification words it: the binding's
    flag when it is set, else the owner's attribute of the same name when
    it has one, else the built-in default. *)
Definition spec_resolve_policy
    (flag : PyVal) (owner_attr : option PyVal) (dflt : bool) : bool :=
  match flag with
  | VNone =>
      match owner_attr with
      | Some v => truthy v
      | None => dflt
      end
  | set_flag => truthy set_flag
  end.

(** What a method of the binding may change on the owner: the client,
    and the binding's own slot.  The key, the policy attributes and every
    other attribute are as before. *)
Definition untouched_outside {S} (self : Property.t) (obj obj' : Owner S) : Prop :=
  obj_key obj' = obj_key obj
  /\ obj_autocommit obj' = obj_autocommit obj
  /\ obj_alwaysfetch obj' = obj_alwaysfetch obj
  /\ forall attr : string,
       attr <> Property.mangle (Property.name self) ->
       obj_dict obj' !! attr = obj_dict obj !! attr.

(** What read access gives when it goes to the store: the fetched value,
    or the key error when there is none. *)
Definition read_through (self : Property.t) (k : string)
    (response : option bytes) : Res PyVal :=
  if is_null (fetched self response)
  then Raise (RedisKeyError k)
  else Ok (fetched self response).

(** ** A store and a codec to run the binding on *)

(** An in-memory store that answers as a Redis client does: [set]
    succeeds, [delete] and [exists] count the keys found. *)
#[export] Instance mem_store : RemoteStore (gmap string bytes) := {|
  store_get k m := (m !! k, m);
  store_set k v m := (VBool true, <[k := v]> m);
  store_delete k m :=
    (VInt (match m !! k with Some _ => 1 | None => 0 end), base.delete k m);
  store_exists k m :=
    (VInt (match m !! k with Some _ => 1 | None => 0 end), m)
|}.

(** A store that is down for writes: nothing is stored or deleted. *)
Inductive ReadOnly : Type := read_only (m : gmap string bytes).

#[export] Instance read_only_store : RemoteStore ReadOnly := {|
  store_get k s := let 'read_only m := s in (m !! k, s);
  store_set k v s := (VBool false, s);
  store_delete k s := (VBool false, s);
  store_exists k s :=
    let 'read_only m := s in (VBool (bool_decide (is_Some (m !! k))), s)
|}.

(** A tagged codec: one byte for the kind of value, then its text. *)
Definition tag_serialize (v : PyVal) : bytes :=
  match v with
  | VNull => [x30]
  | VNone => [x4e]
  | VBool true => [x54]
  | VBool false => [x46]
  | VInt z => x69 :: list_byte_of_string (pretty.pretty z)
  | VStr s => x73 :: list_byte_of_string s
  | VBytes bs => x62 :: bs
  end.

Definition tag_deserialize (bs : bytes) : PyVal :=
  match bs with
  | x4e :: _ => VNone
  | x54 :: _ => VBool true
  | x46 :: _ => VBool false
  | x73 :: rest => VStr (string_of_list_byte rest)
  | x62 :: rest => VBytes rest
  | _ => VBytes bs
  end.

(** [Property(name)] with every option left at None, over the codec. *)
Definition plain (name : string) : Property.t :=
  Property.mk name VNone VNone tag_serialize tag_deserialize.

Definition fresh_owner {S} (key : option string) (store : S) : Owner S :=
  mkOwner key None None (mkClient store []) ∅.

(** A binding named [score] and owners to run it on: a store that holds
    the key, one that does not, and one that refuses writes. *)
Definition score : Property.t := plain "score".

Definition stored : gmap string bytes :=
  <[ "user:42:score" := tag_serialize (VStr "7") ]>
    {[ "score" := tag_serialize (VStr "7") ]}.

Definition holder : Owner (gmap string bytes) := fresh_owner None stored.

Definition user42 : Owner (gmap string bytes) :=
  with_dict (fresh_owner (Some "user:42") stored)
            {[ Property.mangle "score" := VStr "9" ]}.

Definition offline : Owner ReadOnly :=
  with_dict (fresh_owner None (read_only stored))
            {[ Property.mangle "score" := VStr "9" ]}.

(** A second binding on the same owners, and bindings with the policies
    set on the binding itself. *)
Definition level : Property.t := plain "level".

Definition eager : Property.t :=
  Property.mk "score" VNone (VBool true) tag_serialize tag_deserialize.

Definition unsaved : Property.t :=
  Property.mk "score" (VBool false) (VBool true) tag_serialize tag_deserialize.

(** A reader of the store as [user42] leaves it after writing 5. *)
Definition reader42 : Owner (gmap string bytes) :=
  fresh_owner (Some "user:42")
    (db (obj_redis (snd (Property.__set__ score (VStr "5") user42)))).


(** A class body: an unnamed property bound under two names, a named
    collection, a model class and a plain object. *)
Definition body_heap : gmap nat DatabaseType.Attr :=
  <[ 1 := DatabaseType.mkAttr true false false None None ]>
  (<[ 2 := DatabaseType.mkAttr false true false (Some "tags") None ]>
  (<[ 3 := DatabaseType.mkAttr false false true None None ]>
  {[ 4 := DatabaseType.mkAttr false false false None None ]})).

Definition body_dict : list (string * nat) :=
  [("score", 1); ("points", 1); ("labels", 2); ("User", 3); ("redis", 4)].

(** * Properties *)

Arguments Property.mangle : simpl never.

(** ** Formatting *)

Lemma format_plain (c : ascii) (rest : string) (args : list string) :
  c <> "{"%char ->
  format (String c rest) args = String c <$> format rest args.
Proof.
  intros Hc. destruct rest as [|d rest']; simpl.
  - reflexivity.
  - apply Ascii.eqb_neq in Hc. rewrite Hc. reflexivity.
Qed.

Lemma append_empty_r (s : string) : s +:+ "" = s.
Proof.
  induction s as [|c s IH]; [reflexivity|].
  change (String c (s +:+ "") = String c s). by rewrite IH.
Qed.

Lemma mangle_eq (name : string) :
  Property.mangle name = "_trol_property_" +:+ name.
Proof.
  unfold Property.mangle. cbn. rewrite append_empty_r. reflexivity.
Qed.

Lemma format_key (k name : string) :
  format "{}:{}" [k; name] = Some (k +:+ ":" +:+ name).
Proof.
  cbn. rewrite append_empty_r. reflexivity.
Qed.

(** The mangled name is none of the attributes the binding reads. *)
Lemma mangle_not_reserved (name : string) :
  Property.mangle name <> "key" /\ Property.mangle name <> "redis" /\
  Property.mangle name <> "autocommit" /\ Property.mangle name <> "alwaysfetch".
Proof. rewrite mangle_eq. repeat split; discriminate. Qed.

Lemma append_cancel_l (p a b : string) : p +:+ a = p +:+ b -> a = b.
Proof.
  induction p as [|c p IH]; [trivial|].
  change (String c (p +:+ a) = String c (p +:+ b) -> a = b).
  intros Heq. injection Heq as Heq. auto.
Qed.

Lemma mangle_inj (n1 n2 : string) :
  Property.mangle n1 = Property.mangle n2 -> n1 = n2.
Proof. rewrite !mangle_eq. apply append_cancel_l. Qed.

Section Binding.
Context {S : Type} `{RemoteStore S}.
Variable self : Property.t.

Implicit Types (obj : Owner S) (v : PyVal).

(** ** The equations of the methods *)

Lemma set_eq v obj :
  Property.set self v obj
  = (Ok tt, with_dict obj (<[Property.mangle (Property.name self) := v]> (obj_dict obj))).
Proof. reflexivity. Qed.

Lemma value_eq obj :
  Property.value self obj
  = match slot self obj with
    | Some v => (Ok v, obj)
    | None =>
        (Ok VNull,
         with_dict obj (<[Property.mangle (Property.name self) := VNull]> (obj_dict obj)))
    end.
Proof.
  unfold Property.value, slot, bind, gets. simpl.
  destruct (obj_dict obj !! _); reflexivity.
Qed.

Lemma slot_with_dict_insert v obj :
  slot self (with_dict obj (<[Property.mangle (Property.name self) := v]> (obj_dict obj)))
  = Some v.
Proof. unfold slot. simpl. apply lookup_insert_eq. Qed.

Lemma slot_with_dict_insert' v obj d :
  slot self (with_dict obj (<[Property.mangle (Property.name self) := v]> d))
  = Some v.
Proof. unfold slot. simpl. apply lookup_insert_eq. Qed.

Lemma value_cached obj : fst (Property.value self obj) = Ok (cached self obj).
Proof. rewrite value_eq. unfold cached. destruct (slot self obj); reflexivity. Qed.

Lemma key_of_with_dict obj d :
  Property.key_of self (with_dict obj d) = Property.key_of self obj.
Proof. reflexivity. Qed.

Lemma key_of_with_redis obj c :
  Property.key_of self (with_redis obj c) = Property.key_of self obj.
Proof. reflexivity. Qed.

Lemma fetch_eq obj :
  Property.fetch self obj
  = let k := Property.key_of self obj in
    let rs := store_get k (db (obj_redis obj)) in
    let v := fetched self (fst rs) in
    (Ok v,
     with_dict
       (with_redis obj (mkClient (snd rs) (calls (obj_redis obj) ++ [CGet k])))
       (<[Property.mangle (Property.name self) := v]> (obj_dict obj))).
Proof.
  unfold Property.fetch, Property.key, bind, gets, on_redis. simpl.
  destruct (store_get _ _) as [resp s1]. reflexivity.
Qed.

Lemma commit_eq obj :
  Property.commit self obj
  = let obj1 := snd (Property.value self obj) in
    let v := cached self obj in
    if is_null v then (Ok (VBool true), obj1)
    else
      let k := Property.key_of self obj in
      let rs := store_set k (Property.serialize self v) (db (obj_redis obj)) in
      (Ok (fst rs),
       with_redis obj
         (mkClient (snd rs)
            (calls (obj_redis obj) ++ [CSet k (Property.serialize self v)]))).
Proof.
  unfold Property.commit, bind at 1. rewrite value_eq. unfold cached.
  destruct (slot self obj) as [v|] eqn:Hs; simpl.
  - unfold bind at 1. rewrite value_eq, Hs. simpl.
    destruct (is_null v); [reflexivity|].
    unfold bind, Property.key, gets, on_redis. simpl.
    destruct (store_set _ _ _). reflexivity.
  - unfold bind at 1. rewrite value_eq, slot_with_dict_insert. reflexivity.
Qed.

Lemma delete_eq obj :
  Property.delete self obj
  = let k := Property.key_of self obj in
    let rs := store_delete k (db (obj_redis obj)) in
    let obj1 :=
      with_redis obj (mkClient (snd rs) (calls (obj_redis obj) ++ [CDelete k])) in
    (Ok (fst rs),
     if truthy (fst rs)
     then with_dict obj1 (<[Property.mangle (Property.name self) := VNone]> (obj_dict obj))
     else obj1).
Proof.
  unfold Property.delete, Property.key, bind, gets, on_redis. simpl.
  destruct (store_delete _ _) as [ok s1]. simpl.
  destruct (truthy ok); reflexivity.
Qed.

End Binding.

(** ** Policy resolution, key and local value *)

Section Policy.
Context {S : Type} `{RemoteStore S}.
Variable self : Property.t.

Implicit Types (obj : Owner S) (v : PyVal).

Lemma alwaysfetch_test_resolve obj :
  Property.alwaysfetch_test self obj
  = spec_resolve_policy (Property.alwaysfetch self) (obj_alwaysfetch obj) false.
Proof.
  unfold Property.alwaysfetch_test, spec_resolve_policy, getattr.
  destruct (Property.alwaysfetch self) as [| |b|z|s|bs]; simpl;
    try reflexivity; try apply orb_false_r.
  by destruct (obj_alwaysfetch obj).
Qed.

Lemma autocommit_test_resolve obj :
  Property.autocommit_test self obj
  = spec_resolve_policy (Property.autocommit self) (obj_autocommit obj) true.
Proof.
  unfold Property.autocommit_test, spec_resolve_policy, getattr.
  destruct (Property.autocommit self) as [| |b|z|s|bs]; simpl;
    try reflexivity; try apply orb_false_r.
  by destruct (obj_autocommit obj).
Qed.

(** C4: the tests [__get__] and [__set__] make are the three-level
    fallback: a flag set to true or false on the binding decides (so a
    binding's false beats an owner's true); a flag left at None defers to
    the owner's attribute of the same name; and when the owner has none
    the default is true for autocommit and false for alwaysfetch. *)
Theorem C4_policy_fallback obj :
  Property.autocommit_test self obj
  = spec_resolve_policy (Property.autocommit self) (obj_autocommit obj) true
  /\ Property.alwaysfetch_test self obj
     = spec_resolve_policy (Property.alwaysfetch self) (obj_alwaysfetch obj) false
  /\ (forall (b : bool) owner_attr dflt,
        spec_resolve_policy (VBool b) owner_attr dflt = b)
  /\ (forall dflt, spec_resolve_policy (VBool false) (Some (VBool true)) dflt = false)
  /\ (forall (b : bool) dflt, spec_resolve_policy VNone (Some (VBool b)) dflt = b)
  /\ (forall dflt, spec_resolve_policy VNone None dflt = dflt).
Proof.
  split; [apply autocommit_test_resolve|].
  split; [apply alwaysfetch_test_resolve|].
  repeat split.
Qed.

(** C3: the key is the owner's key, a colon and the name when the owner
    has a key, and the name alone when the owner's key is None; computing
    it changes nothing, it depends on the owner through its key only, and
    asking again gives the same string. *)
Theorem C3_key_composition obj :
  Property.key_of self obj
  = match obj_key obj with
    | Some k => k +:+ ":" +:+ Property.name self
    | None => Property.name self
    end
  /\ Property.key self obj = (Ok (Property.key_of self obj), obj)
  /\ (forall ac af (r : Client S) d,
        Property.key_of self (mkOwner (obj_key obj) ac af r d)
        = Property.key_of self obj)
  /\ Property.key self (snd (Property.key self obj)) = Property.key self obj.
Proof.
  repeat split.
  unfold Property.key_of. destruct (obj_key obj) as [k|]; [|reflexivity].
  by rewrite format_key.
Qed.

(** C9: [value] never raises and never calls the store.  When the owner
    has no slot for the attribute it stores the Null sentinel under the
    mangled name and returns it; when it has one it returns the stored
    value and leaves the owner as it is, so every later call returns what
    the first one did. *)
Theorem C9_value_lazy_null obj :
  Property.value self obj
  = match obj_dict obj !! Property.mangle (Property.name self) with
    | None =>
        (Ok VNull,
         with_dict obj
           (<[Property.mangle (Property.name self) := VNull]> (obj_dict obj)))
    | Some v => (Ok v, obj)
    end
  /\ (exists v, fst (Property.value self obj) = Ok v)
  /\ obj_redis (snd (Property.value self obj)) = obj_redis obj
  /\ (let obj1 := snd (Property.value self obj) in
      Property.value self obj1 = (fst (Property.value self obj), obj1)).
Proof.
  pose proof (value_eq self obj) as Hv. unfold slot in Hv.
  split; [exact Hv|].
  split; [exists (cached self obj); apply value_cached|].
  destruct (obj_dict obj !! Property.mangle (Property.name self)) as [v|] eqn:Hs.
  - rewrite Hv. simpl. split; [reflexivity|].
    rewrite value_eq. unfold slot. by rewrite Hs.
  - rewrite Hv. simpl. split; [reflexivity|].
    by rewrite value_eq, slot_with_dict_insert.
Qed.

End Policy.

(** ** Synchronisation with the store *)

Section Sync.
Context {S : Type} `{RemoteStore S}.
Variable self : Property.t.

Implicit Types (obj : Owner S) (v : PyVal).

Let slot_name : string := Property.mangle (Property.name self).

(** C5: [fetch] makes one [get] on the computed key, stores the
    deserialised answer, or the Null sentinel when there is none, in the
    owner's slot whatever the slot held, and returns that value.  When
    the store answers the next [get] as it answered this one, a second
    fetch returns the same value and leaves the same local state. *)
Theorem C5_fetch_overwrites_idempotent obj :
  let k := Property.key_of self obj in
  let rs := store_get k (db (obj_redis obj)) in
  let v := match fst rs with
           | Some r => Property.deserialize self r
           | None => VNull
           end in
  let obj1 := snd (Property.fetch self obj) in
  Property.fetch self obj
  = (Ok v,
     mkOwner (obj_key obj) (obj_autocommit obj) (obj_alwaysfetch obj)
       (mkClient (snd rs) (calls (obj_redis obj) ++ [CGet k]))
       (<[slot_name := v]> (obj_dict obj)))
  /\ (fst (store_get k (snd rs)) = fst rs ->
      fst (Property.fetch self obj1) = Ok v
      /\ obj_dict (snd (Property.fetch self obj1)) = obj_dict obj1).
Proof.
  intros k rs v obj1.
  assert (Hf : Property.fetch self obj
    = (Ok v,
       mkOwner (obj_key obj) (obj_autocommit obj) (obj_alwaysfetch obj)
         (mkClient (snd rs) (calls (obj_redis obj) ++ [CGet k]))
         (<[slot_name := v]> (obj_dict obj)))) by apply fetch_eq.
  split; [exact Hf|].
  intros Hsame. subst obj1. rewrite Hf. simpl.
  rewrite fetch_eq. simpl.
  change (Property.key_of self _) with k. fold rs. rewrite Hsame.
  split; [reflexivity|].
  fold slot_name. apply insert_insert_eq.
Qed.

(** C6: when the local value is the Null sentinel, [commit] calls the
    store not at all and returns True; otherwise it makes one [set] of
    the serialised local value on the computed key, returns what the
    store answered, and leaves the local state as it was. *)
Theorem C6_commit_null_noop obj :
  let k := Property.key_of self obj in
  let v := cached self obj in
  let bs := Property.serialize self v in
  let rs := store_set k bs (db (obj_redis obj)) in
  let obj' := snd (Property.commit self obj) in
  if is_null v then
    fst (Property.commit self obj) = Ok (VBool true)
    /\ obj_redis obj' = obj_redis obj
  else
    fst (Property.commit self obj) = Ok (fst rs)
    /\ obj_redis obj' = mkClient (snd rs) (calls (obj_redis obj) ++ [CSet k bs])
    /\ obj_dict obj' = obj_dict obj.
Proof.
  intros k v bs rs obj'. subst obj'. rewrite commit_eq. simpl.
  fold v. destruct (is_null v) eqn:Hn; simpl.
  - split; [reflexivity|].
    rewrite value_eq. destruct (slot self obj); reflexivity.
  - repeat split.
Qed.

(** C7: when the store's answer to [delete] is not true, [delete]
    returns that answer and the owner's local state is what it was. *)
Theorem C7_failed_delete_keeps_cache obj :
  truthy (fst (store_delete (Property.key_of self obj) (db (obj_redis obj)))) = false ->
  obj_dict (snd (Property.delete self obj)) = obj_dict obj
  /\ fst (Property.delete self obj)
     = Ok (fst (store_delete (Property.key_of self obj) (db (obj_redis obj)))).
Proof.
  intros Hno. rewrite delete_eq. simpl. rewrite Hno. split; reflexivity.
Qed.

(** C10: after a delete the store reports as done the slot holds None,
    not the Null sentinel, so [commit] does not return early: it makes one
    [set] of the serialised None on the key just deleted and returns the
    store's answer. *)
Theorem C10_commit_after_delete_writes_none obj :
  let k := Property.key_of self obj in
  let obj1 := snd (Property.delete self obj) in
  let bs := Property.serialize self VNone in
  let rs := store_set k bs (db (obj_redis obj1)) in
  truthy (fst (store_delete k (db (obj_redis obj)))) = true ->
  slot self obj1 = Some VNone
  /\ is_null (cached self obj1) = false
  /\ Property.commit self obj1
     = (Ok (fst rs),
        with_redis obj1
          (mkClient (snd rs)
             (calls (obj_redis obj) ++ [CDelete k] ++ [CSet k bs]))).
Proof.
  intros k obj1 bs rs Hok.
  assert (Hs : slot self obj1 = Some VNone).
  { subst obj1. rewrite delete_eq. simpl. fold k. rewrite Hok.
    unfold slot. simpl. apply lookup_insert_eq. }
  assert (Hc : calls (obj_redis obj1) = (calls (obj_redis obj) ++ [CDelete k])%list).
  { subst obj1. rewrite delete_eq. simpl. fold k. rewrite Hok. reflexivity. }
  assert (Hk : Property.key_of self obj1 = k).
  { subst obj1. rewrite delete_eq. simpl. fold k. rewrite Hok. reflexivity. }
  split; [exact Hs|].
  unfold cached. rewrite Hs. split; [reflexivity|].
  rewrite commit_eq. unfold cached. rewrite Hs. simpl.
  rewrite Hk, Hc. fold bs rs. by rewrite <- app_assoc.
Qed.

End Sync.

(** ** Read and write access *)

Section Access.
Context {S : Type} `{RemoteStore S}.
Variable self : Property.t.

Implicit Types (obj : Owner S) (v : PyVal).

Lemma get_eq obj :
  Property.__get__ self obj
  = let k := Property.key_of self obj in
    let v0 := cached self obj in
    if is_null v0 || Property.alwaysfetch_test self obj then
      let rs := store_get k (db (obj_redis obj)) in
      let v1 := fetched self (fst rs) in
      (if is_null v1 then Raise (RedisKeyError k) else Ok v1,
       with_dict
         (with_redis obj (mkClient (snd rs) (calls (obj_redis obj) ++ [CGet k])))
         (<[Property.mangle (Property.name self) := v1]> (obj_dict obj)))
    else (Ok v0, obj).
Proof.
  unfold Property.__get__. unfold bind at 1. rewrite value_eq. unfold cached.
  destruct (slot self obj) as [v0|] eqn:Hs; simpl.
  - unfold bind at 1. unfold gets at 1.
    destruct (is_null v0 || Property.alwaysfetch_test self obj) eqn:Hc.
    + unfold bind at 1. rewrite fetch_eq. simpl.
      destruct (is_null (fetched self _)); reflexivity.
    + apply orb_false_iff in Hc as [Hn _].
      unfold bind, ret. rewrite Hn. reflexivity.
  - unfold bind at 1. unfold gets at 1. simpl.
    unfold bind at 1. rewrite fetch_eq. simpl. rewrite insert_insert_eq.
    destruct (is_null (fetched self _)); reflexivity.
Qed.

Lemma set_access_eq v obj :
  Property.__set__ self v obj
  = let obj1 :=
      with_dict obj (<[Property.mangle (Property.name self) := v]> (obj_dict obj)) in
    if Property.autocommit_test self obj
    then (Ok tt, snd (Property.commit self obj1))
    else (Ok tt, obj1).
Proof.
  unfold Property.__set__. unfold bind at 1. rewrite set_eq.
  unfold bind at 1. unfold gets at 1.
  change (Property.autocommit_test self (with_dict obj _))
    with (Property.autocommit_test self obj).
  destruct (Property.autocommit_test self obj); [|reflexivity].
  unfold bind. rewrite commit_eq. simpl.
  destruct (is_null _); reflexivity.
Qed.

(** C2: read access fetches first exactly when the local value is the
    Null sentinel or the alwaysfetch policy resolves to true; what it then
    returns is the value the owner's slot holds; and it raises the key
    error, carrying the computed key, exactly when that value is still the
    Null sentinel. *)
Theorem C2_get_read_through obj :
  let k := Property.key_of self obj in
  let v0 := cached self obj in
  let fetch_first :=
    is_null v0
    || spec_resolve_policy (Property.alwaysfetch self) (obj_alwaysfetch obj) false in
  let v1 :=
    if fetch_first
    then fetched self (fst (store_get k (db (obj_redis obj))))
    else v0 in
  let obj' := snd (Property.__get__ self obj) in
  calls (obj_redis obj')
  = (calls (obj_redis obj) ++ (if fetch_first then [CGet k] else []))%list
  /\ cached self obj' = v1
  /\ fst (Property.__get__ self obj)
     = (if is_null v1 then Raise (RedisKeyError k) else Ok v1).
Proof.
  intros k v0 fetch_first v1 obj'. subst obj'.
  rewrite get_eq. simpl. rewrite alwaysfetch_test_resolve.
  fold k v0 fetch_first. subst v1.
  destruct fetch_first eqn:Hf; simpl.
  - repeat split. unfold cached, slot. simpl. by rewrite lookup_insert_eq.
  - apply orb_false_iff in Hf as [Hn _]. rewrite Hn.
    repeat split. symmetry. apply app_nil_r.
Qed.

(** C8: write access puts the value in the owner's slot whatever the
    policy; when autocommit resolves to true it then runs [commit] on
    that state, which makes one [set] of the serialised value unless the
    value is the Null sentinel; when autocommit resolves to false the
    client is not called. *)
Theorem C8_set_write_through v obj :
  let k := Property.key_of self obj in
  let bs := Property.serialize self v in
  let obj1 := snd (Property.set self v obj) in
  let obj' := snd (Property.__set__ self v obj) in
  fst (Property.__set__ self v obj) = Ok tt
  /\ slot self obj' = Some v
  /\ (if spec_resolve_policy (Property.autocommit self) (obj_autocommit obj) true
      then obj' = snd (Property.commit self obj1)
           /\ calls (obj_redis obj')
              = (calls (obj_redis obj)
                 ++ (if is_null v then [] else [CSet k bs]))%list
      else obj' = obj1 /\ obj_redis obj' = obj_redis obj).
Proof.
  intros k bs obj1 obj'. subst obj' obj1.
  rewrite set_access_eq, set_eq, <- autocommit_test_resolve. simpl.
  set (obj1 := with_dict obj _).
  assert (Hs : slot self obj1 = Some v) by apply slot_with_dict_insert.
  destruct (Property.autocommit_test self obj); simpl.
  - rewrite commit_eq. unfold cached. rewrite value_eq, Hs. simpl.
    destruct (is_null v); simpl.
    + repeat split; [exact Hs | symmetry; apply app_nil_r].
    + repeat split. exact Hs.
  - repeat split. exact Hs.
Qed.

(** C1, on the code: a delete the store reports as done is returned as
    such and leaves None in the owner's slot, so under the default
    alwaysfetch policy the next read access does not raise: it returns
    None and calls the store no more. *)
Theorem C1_read_after_delete_returns_none obj :
  let k := Property.key_of self obj in
  let ok := fst (store_delete k (db (obj_redis obj))) in
  let obj1 := snd (Property.delete self obj) in
  truthy ok = true ->
  Property.alwaysfetch self = VNone ->
  obj_alwaysfetch obj = None ->
  fst (Property.delete self obj) = Ok ok
  /\ Property.__get__ self obj1 = (Ok VNone, obj1).
Proof.
  intros k ok obj1 Hok Haf Hoa. subst obj1.
  rewrite delete_eq. simpl. fold k ok. rewrite Hok.
  split; [reflexivity|].
  rewrite get_eq. simpl. unfold cached. rewrite slot_with_dict_insert'.
  unfold Property.alwaysfetch_test. rewrite Haf. simpl. rewrite Hoa. reflexivity.
Qed.

End Access.

(** ** The remaining operations, and what a binding leaves alone *)

Section Frame.
Context {S : Type} `{RemoteStore S}.
Variables self other : Property.t.

Implicit Types (obj : Owner S) (v : PyVal).

(** [exists] asks the store about the computed key and keeps the local
    state. *)
Lemma exists_eq obj :
  let k := Property.key_of self obj in
  let rs := store_exists k (db (obj_redis obj)) in
  Property.exists_ self obj
  = (Ok (fst rs),
     with_redis obj (mkClient (snd rs) (calls (obj_redis obj) ++ [CExists k]))).
Proof.
  unfold Property.exists_, Property.key, bind, gets, on_redis. simpl.
  destruct (store_exists _ _). reflexivity.
Qed.

Lemma exists_keeps_dict obj :
  obj_dict (snd (Property.exists_ self obj)) = obj_dict obj.
Proof. by rewrite exists_eq. Qed.

(** After [invalidate] the next read access goes to the store. *)
Lemma invalidate_forces_fetch obj :
  let obj1 := snd (Property.invalidate self obj) in
  cached self obj1 = VNull
  /\ calls (obj_redis (snd (Property.__get__ self obj1)))
     = (calls (obj_redis obj) ++ [CGet (Property.key_of self obj)])%list.
Proof.
  intros obj1. subst obj1.
  change (Property.invalidate self obj) with (Property.set self Property.null obj).
  rewrite set_eq. simpl.
  assert (Hc : cached self
            (with_dict obj
               (<[Property.mangle (Property.name self) := Property.null]>
                  (obj_dict obj))) = VNull).
  { unfold cached. by rewrite slot_with_dict_insert. }
  split; [exact Hc|].
  rewrite get_eq. simpl. rewrite Hc. reflexivity.
Qed.

(** A binding writes its own slot only: the slot of a binding with
    another name is what it was. *)
Lemma set_other_slot v obj :
  Property.name self <> Property.name other ->
  slot other (snd (Property.set self v obj)) = slot other obj.
Proof.
  intros Hne. rewrite set_eq. unfold slot. simpl.
  apply lookup_insert_ne. intros Heq. apply Hne. by apply mangle_inj.
Qed.

Lemma fetch_other_slot obj :
  Property.name self <> Property.name other ->
  slot other (snd (Property.fetch self obj)) = slot other obj.
Proof.
  intros Hne. rewrite fetch_eq. unfold slot. simpl.
  apply lookup_insert_ne. intros Heq. apply Hne. by apply mangle_inj.
Qed.

(** No method changes the owner's key, so the computed key is stable. *)
Lemma delete_keeps_key obj :
  Property.key_of self (snd (Property.delete self obj)) = Property.key_of self obj.
Proof. rewrite delete_eq. simpl. by destruct (truthy _). Qed.

Lemma fetch_keeps_key obj :
  Property.key_of self (snd (Property.fetch self obj)) = Property.key_of self obj.
Proof. by rewrite fetch_eq. Qed.

Lemma commit_keeps_key obj :
  Property.key_of self (snd (Property.commit self obj)) = Property.key_of self obj.
Proof.
  rewrite commit_eq. simpl. destruct (is_null _); [|reflexivity].
  rewrite value_eq. by destruct (slot self obj).
Qed.

End Frame.

(** With alwaysfetch set on the binding every read access makes a [get],
    whatever the slot holds. *)
Lemma alwaysfetch_reads_twice {S : Type} `{RemoteStore S}
    (self : Property.t) (obj : Owner S) :
  Property.alwaysfetch self = VBool true ->
  let k := Property.key_of self obj in
  let obj1 := snd (Property.__get__ self obj) in
  calls (obj_redis (snd (Property.__get__ self obj1)))
  = (calls (obj_redis obj) ++ [CGet k; CGet k])%list.
Proof.
  intros Haf k obj1.
  assert (Ht : forall o : Owner S, Property.alwaysfetch_test self o = true).
  { intros o. unfold Property.alwaysfetch_test. by rewrite Haf. }
  subst obj1. rewrite (get_eq self obj). cbv zeta. rewrite Ht, orb_true_r. simpl.
  rewrite get_eq. cbv zeta. rewrite Ht, orb_true_r. simpl. fold k.
  by rewrite <- app_assoc.
Qed.

(** On the in-memory store, a value written under autocommit is what a
    later fetch brings back, for a codec that round-trips it. *)
Lemma write_then_fetch (self : Property.t) (v : PyVal)
    (obj : Owner (gmap string bytes)) :
  Property.autocommit self = VBool true ->
  is_null v = false ->
  Property.deserialize self (Property.serialize self v) = v ->
  fst (Property.fetch self (snd (Property.__set__ self v obj))) = Ok v.
Proof.
  intros Hac Hn Hrt.
  set (k := Property.key_of self obj).
  set (bs := Property.serialize self v).
  assert (Hset : snd (Property.__set__ self v obj)
    = with_redis
        (with_dict obj (<[Property.mangle (Property.name self) := v]> (obj_dict obj)))
        (mkClient (<[k := bs]> (db (obj_redis obj)))
                  (calls (obj_redis obj) ++ [CSet k bs]))).
  { rewrite set_access_eq. cbv zeta.
    unfold Property.autocommit_test. rewrite Hac.
    cbn [truthy orb snd]. rewrite commit_eq. cbv zeta.
    unfold cached. rewrite slot_with_dict_insert.
    cbn [from_option id]. rewrite Hn. reflexivity. }
  rewrite Hset, fetch_eq. cbv zeta. cbn [fst].
  change (Property.key_of self (with_redis _ _)) with k.
  unfold fetched. cbn. rewrite lookup_insert_eq. subst bs. by rewrite Hrt.
Qed.

(** ** What the methods leave alone *)

Section Untouched.
Context {S : Type} `{RemoteStore S}.
Variable self : Property.t.

Implicit Types (obj : Owner S) (v : PyVal).

Lemma untouched_refl obj : untouched_outside self obj obj.
Proof. repeat split. Qed.

Lemma untouched_trans obj1 obj2 obj3 :
  untouched_outside self obj1 obj2 ->
  untouched_outside self obj2 obj3 ->
  untouched_outside self obj1 obj3.
Proof.
  intros (Hk & Ha & Hf & Hd) (Hk' & Ha' & Hf' & Hd').
  repeat split; try congruence.
  intros attr Hne. rewrite Hd', Hd by exact Hne. reflexivity.
Qed.

Lemma untouched_slot obj v d :
  (forall attr : string,
     attr <> Property.mangle (Property.name self) -> d !! attr = obj_dict obj !! attr) ->
  untouched_outside self obj
    (with_dict obj (<[Property.mangle (Property.name self) := v]> d)).
Proof.
  intros Hd. repeat split. intros attr Hne. simpl.
  rewrite lookup_insert_ne by congruence. by apply Hd.
Qed.

Lemma untouched_redis obj c : untouched_outside self obj (with_redis obj c).
Proof. repeat split. Qed.

Lemma set_untouched v obj :
  untouched_outside self obj (snd (Property.set self v obj)).
Proof. rewrite set_eq. by apply untouched_slot. Qed.

Lemma value_untouched obj :
  untouched_outside self obj (snd (Property.value self obj)).
Proof.
  rewrite value_eq. destruct (slot self obj); simpl.
  - apply untouched_refl.
  - by apply untouched_slot.
Qed.

Lemma fetch_untouched obj :
  untouched_outside self obj (snd (Property.fetch self obj)).
Proof.
  rewrite fetch_eq. cbv zeta. cbn [snd].
  eapply untouched_trans; [apply untouched_redis|].
  by apply (untouched_slot (with_redis obj _)).
Qed.

Lemma commit_untouched obj :
  untouched_outside self obj (snd (Property.commit self obj)).
Proof.
  rewrite commit_eq. cbv zeta. destruct (is_null _); cbn [snd].
  - apply value_untouched.
  - apply untouched_redis.
Qed.

Lemma delete_untouched obj :
  untouched_outside self obj (snd (Property.delete self obj)).
Proof.
  rewrite delete_eq. cbv zeta. cbn [snd]. destruct (truthy _).
  - eapply untouched_trans; [apply untouched_redis|].
    by apply (untouched_slot (with_redis obj _)).
  - apply untouched_redis.
Qed.

Lemma exists_untouched obj :
  untouched_outside self obj (snd (Property.exists_ self obj)).
Proof. rewrite exists_eq. apply untouched_redis. Qed.

Lemma get_untouched obj :
  untouched_outside self obj (snd (Property.__get__ self obj)).
Proof.
  rewrite get_eq. cbv zeta. destruct (_ || _); cbn [snd].
  - eapply untouched_trans; [apply untouched_redis|].
    by apply (untouched_slot (with_redis obj _)).
  - apply untouched_refl.
Qed.

Lemma set_access_untouched v obj :
  untouched_outside self obj (snd (Property.__set__ self v obj)).
Proof.
  rewrite set_access_eq. cbv zeta. destruct (Property.autocommit_test self obj); cbn [snd].
  - eapply untouched_trans; [|apply commit_untouched]. by apply untouched_slot.
  - by apply untouched_slot.
Qed.

(** X1: no method of the binding changes the owner's key or policy
    attributes, and in the owner's dictionary none writes an attribute
    other than the binding's own mangled slot. *)
Theorem methods_write_own_slot_only v obj :
  untouched_outside self obj (snd (Property.set self v obj))
  /\ untouched_outside self obj (snd (Property.value self obj))
  /\ untouched_outside self obj (snd (Property.fetch self obj))
  /\ untouched_outside self obj (snd (Property.commit self obj))
  /\ untouched_outside self obj (snd (Property.delete self obj))
  /\ untouched_outside self obj (snd (Property.exists_ self obj))
  /\ untouched_outside self obj (snd (Property.invalidate self obj))
  /\ untouched_outside self obj (snd (Property.__get__ self obj))
  /\ untouched_outside self obj (snd (Property.__set__ self v obj)).
Proof.
  repeat split_and; auto using set_untouched, value_untouched, fetch_untouched,
    commit_untouched, delete_untouched, exists_untouched, get_untouched,
    set_access_untouched.
  apply (set_untouched Property.null).
Qed.

Lemma untouched_other (other : Property.t) obj obj' :
  Property.name self <> Property.name other ->
  untouched_outside self obj obj' ->
  cached other obj' = cached other obj.
Proof.
  intros Hne (_ & _ & _ & Hd). unfold cached, slot.
  rewrite Hd; [reflexivity|].
  intros Heq. apply Hne. symmetry. by apply mangle_inj.
Qed.

(** X2: two bindings with different names on one owner do not disturb
    each other: whatever one of them does, a write, a read that fetches, a
    fetch, a commit, a delete or an invalidation, the local value of the
    other is what it was. *)
Theorem other_binding_undisturbed (other : Property.t) v obj :
  Property.name self <> Property.name other ->
  cached other (snd (Property.__set__ self v obj)) = cached other obj
  /\ cached other (snd (Property.__get__ self obj)) = cached other obj
  /\ cached other (snd (Property.fetch self obj)) = cached other obj
  /\ cached other (snd (Property.commit self obj)) = cached other obj
  /\ cached other (snd (Property.delete self obj)) = cached other obj
  /\ cached other (snd (Property.invalidate self obj)) = cached other obj.
Proof.
  intros Hne.
  repeat split_and; apply untouched_other; try exact Hne;
    auto using set_access_untouched, get_untouched, fetch_untouched,
      commit_untouched, delete_untouched.
  apply (set_untouched Property.null).
Qed.

End Untouched.

(** ** How the operations compose *)

Section Compose.
Context {S : Type} `{RemoteStore S}.
Variable self : Property.t.

Implicit Types (obj : Owner S) (v : PyVal).

Lemma invalidate_eq obj :
  Property.invalidate self obj
  = (Ok tt,
     with_dict obj (<[Property.mangle (Property.name self) := VNull]> (obj_dict obj))).
Proof. reflexivity. Qed.

Lemma cached_with_dict_insert v obj d :
  cached self (with_dict obj (<[Property.mangle (Property.name self) := v]> d)) = v.
Proof. unfold cached. by rewrite slot_with_dict_insert'. Qed.

(** The owner after a write access, in the two cases of the policy. *)
Lemma set_access_state v obj :
  snd (Property.__set__ self v obj)
  = let obj1 :=
      with_dict obj (<[Property.mangle (Property.name self) := v]> (obj_dict obj)) in
    if Property.autocommit_test self obj && negb (is_null v) then
      let k := Property.key_of self obj in
      let bs := Property.serialize self v in
      with_redis obj1
        (mkClient (snd (store_set k bs (db (obj_redis obj))))
                  (calls (obj_redis obj) ++ [CSet k bs]))
    else obj1.
Proof.
  rewrite set_access_eq. cbv zeta.
  destruct (Property.autocommit_test self obj); [|reflexivity].
  cbn [snd andb]. rewrite commit_eq. cbv zeta.
  rewrite cached_with_dict_insert, value_eq, slot_with_dict_insert.
  destruct (is_null v); reflexivity.
Qed.

(** X3: [invalidate] calls the store not at all, and the read access
    that follows gives what the store holds under the key, the
    deserialised value or the key error, whatever the local value and
    the policy were. *)
Theorem invalidate_then_read_is_remote obj :
  let k := Property.key_of self obj in
  let obj1 := snd (Property.invalidate self obj) in
  obj_redis obj1 = obj_redis obj
  /\ fst (Property.__get__ self obj1)
     = read_through self k (fst (store_get k (db (obj_redis obj))))
  /\ calls (obj_redis (snd (Property.__get__ self obj1)))
     = (calls (obj_redis obj) ++ [CGet k])%list.
Proof.
  intros k obj1. subst obj1. rewrite invalidate_eq. cbn [snd].
  split; [reflexivity|].
  rewrite get_eq. cbv zeta. rewrite cached_with_dict_insert. cbn [is_null orb].
  split; [|reflexivity].
  cbn [fst]. unfold read_through.
  change (Property.key_of self (with_dict obj _)) with k.
  change (db (obj_redis (with_dict obj _))) with (db (obj_redis obj)).
  by destruct (is_null _).
Qed.

(** X4: a local value that was not committed is dropped by
    [invalidate]: the commit that follows finds the Null sentinel, calls
    the store not at all and returns True. *)
Theorem invalidate_drops_uncommitted v obj :
  Property.autocommit_test self obj = false ->
  let obj1 := snd (Property.__set__ self v obj) in
  let obj2 := snd (Property.invalidate self obj1) in
  Property.commit self obj2 = (Ok (VBool true), obj2)
  /\ obj_redis obj2 = obj_redis obj.
Proof.
  intros Hac obj1 obj2. subst obj2 obj1.
  rewrite set_access_state. cbv zeta. rewrite Hac. cbn [andb].
  rewrite invalidate_eq. cbn [snd].
  split; [|reflexivity].
  rewrite commit_eq. cbv zeta. rewrite cached_with_dict_insert.
  change (is_null VNull) with true. cbv iota.
  by rewrite value_eq, slot_with_dict_insert'.
Qed.

(** X5: when the alwaysfetch policy holds for the owner, a populated
    slot saves nothing: two read accesses in a row make two [get] calls
    on the key. *)
Theorem alwaysfetch_reads_remote_each_time obj :
  Property.alwaysfetch_test self obj = true ->
  let k := Property.key_of self obj in
  let obj1 := snd (Property.__get__ self obj) in
  calls (obj_redis obj1) = (calls (obj_redis obj) ++ [CGet k])%list
  /\ calls (obj_redis (snd (Property.__get__ self obj1)))
     = (calls (obj_redis obj) ++ [CGet k; CGet k])%list.
Proof.
  intros Haf k obj1. subst obj1.
  rewrite (get_eq self obj). cbv zeta. rewrite Haf, orb_true_r. cbn [snd].
  split; [reflexivity|].
  rewrite get_eq. cbv zeta.
  change (Property.alwaysfetch_test self (with_dict _ _))
    with (Property.alwaysfetch_test self obj).
  rewrite Haf, orb_true_r. cbn. fold k. by rewrite <- app_assoc.
Qed.

(** X6: under alwaysfetch without autocommit a written value does not
    survive the next read access: the read fetches, returns what the
    store holds (or raises the key error), and the slot no longer holds
    the written value. *)
Theorem uncommitted_write_lost_under_alwaysfetch v obj :
  Property.autocommit_test self obj = false ->
  Property.alwaysfetch_test self obj = true ->
  let k := Property.key_of self obj in
  let response := fst (store_get k (db (obj_redis obj))) in
  let obj1 := snd (Property.__set__ self v obj) in
  fst (Property.__get__ self obj1) = read_through self k response
  /\ cached self (snd (Property.__get__ self obj1)) = fetched self response.
Proof.
  intros Hac Haf k response obj1. subst obj1.
  rewrite set_access_state. cbv zeta. rewrite Hac. cbn [andb].
  rewrite get_eq. cbv zeta.
  change (Property.alwaysfetch_test self (with_dict _ _))
    with (Property.alwaysfetch_test self obj).
  rewrite Haf, orb_true_r. cbn [fst snd].
  split; [|apply cached_with_dict_insert].
  unfold read_through. by destruct (is_null _).
Qed.

(** X7: without alwaysfetch a read access after a write access returns
    the written value from the slot and calls the store not at all,
    whether or not the write was committed and whatever the store
    answered to the [set]. *)
Theorem read_your_write_locally v obj :
  Property.alwaysfetch_test self obj = false ->
  is_null v = false ->
  let obj1 := snd (Property.__set__ self v obj) in
  Property.__get__ self obj1 = (Ok v, obj1).
Proof.
  intros Haf Hn obj1.
  assert (Hc : cached self obj1 = v).
  { subst obj1. rewrite set_access_state. cbv zeta.
    destruct (_ && _); apply cached_with_dict_insert. }
  assert (Ht : Property.alwaysfetch_test self obj1 = false).
  { subst obj1. rewrite set_access_state. cbv zeta.
    destruct (_ && _); exact Haf. }
  rewrite get_eq. cbv zeta. by rewrite Hc, Hn, Ht.
Qed.

(** X8: a committed write is what a fetch brings back.  On a store that
    answers a [get] after a [set] on the same key with the bytes set, and
    for a value the codec round-trips, any owner with the same key that
    looks at the store after the write fetches the written value. *)
Theorem committed_write_is_fetched v obj (reader : Owner S) :
  Property.autocommit_test self obj = true ->
  is_null v = false ->
  Property.deserialize self (Property.serialize self v) = v ->
  (forall k bs s, fst (store_get k (snd (store_set k bs s))) = Some bs) ->
  obj_key reader = obj_key obj ->
  db (obj_redis reader) = db (obj_redis (snd (Property.__set__ self v obj))) ->
  fst (Property.fetch self reader) = Ok v
  /\ cached self (snd (Property.fetch self reader)) = v.
Proof.
  intros Hac Hn Hrt Hlaw Hkey Hdb.
  assert (Hk : Property.key_of self reader = Property.key_of self obj).
  { unfold Property.key_of. by rewrite Hkey. }
  rewrite fetch_eq. cbv zeta. cbn [fst snd].
  rewrite cached_with_dict_insert, Hk, Hdb, set_access_state. cbv zeta.
  rewrite Hac, Hn. cbn [andb negb obj_redis with_redis db].
  rewrite Hlaw. unfold fetched. by rewrite Hrt.
Qed.

(** X9: a fetch repairs what [delete] leaves behind.  On a store that
    answers nothing to a [get] after the delete, the fetch after a delete
    puts the Null sentinel in the slot, and a read access that fetches
    raises the key error for the key. *)
Theorem delete_then_fetch_finds_nothing obj :
  let k := Property.key_of self obj in
  let obj1 := snd (Property.delete self obj) in
  fst (store_get k (snd (store_delete k (db (obj_redis obj))))) = None ->
  Property.alwaysfetch_test self obj = true ->
  fst (Property.fetch self obj1) = Ok VNull
  /\ cached self (snd (Property.fetch self obj1)) = VNull
  /\ fst (Property.__get__ self obj1) = Raise (RedisKeyError k).
Proof.
  intros k obj1 Hgone Haf.
  assert (Hk : Property.key_of self obj1 = k) by apply delete_keeps_key.
  assert (Hdb : db (obj_redis obj1) = snd (store_delete k (db (obj_redis obj)))).
  { subst obj1. rewrite delete_eq. cbv zeta. cbn [snd]. by destruct (truthy _). }
  assert (Ht : Property.alwaysfetch_test self obj1 = true).
  { subst obj1. rewrite delete_eq. cbv zeta. cbn [snd]. by destruct (truthy _). }
  rewrite fetch_eq, get_eq. cbv zeta. cbn [fst snd].
  rewrite cached_with_dict_insert, Hk, Hdb, Hgone, Ht, orb_true_r.
  repeat split.
Qed.

(** X10: [exists] makes one [exists] call on the computed key and
    returns the store's answer; unlike [value] and [commit] it does not
    create the slot, and the owner's dictionary is the same map after. *)
Theorem exists_asks_store_only obj :
  let k := Property.key_of self obj in
  let rs := store_exists k (db (obj_redis obj)) in
  let obj' := snd (Property.exists_ self obj) in
  fst (Property.exists_ self obj) = Ok (fst rs)
  /\ obj_dict obj' = obj_dict obj
  /\ calls (obj_redis obj') = (calls (obj_redis obj) ++ [CExists k])%list
  /\ db (obj_redis obj') = snd rs
  /\ (slot self obj = None ->
      slot self obj' = None
      /\ slot self (snd (Property.commit self obj)) = Some VNull).
Proof.
  intros k rs obj'. subst obj'. rewrite exists_eq. cbv zeta. cbn [fst snd].
  repeat split; try done.
  rename select (slot self obj = None) into Hs.
  rewrite commit_eq. cbv zeta. unfold cached. rewrite Hs.
  change (is_null (default Property.null None)) with true. cbv iota.
  rewrite value_eq, Hs. apply slot_with_dict_insert.
Qed.

End Compose.

(** X11: mangling keeps names apart: two names give the same slot only
    when they are equal, and no name gives one of the attributes the
    binding reads on the owner. *)
Theorem mangle_keeps_names_apart (n1 n2 : string) :
  (Property.mangle n1 = Property.mangle n2 <-> n1 = n2)
  /\ Property.mangle n1 <> "key"
  /\ Property.mangle n1 <> "redis"
  /\ Property.mangle n1 <> "autocommit"
  /\ Property.mangle n1 <> "alwaysfetch"
  /\ String.length (Property.mangle n1) = 15 + String.length n1.
Proof.
  split; [split; [apply mangle_inj | by intros ->]|].
  rewrite mangle_eq. repeat split; try discriminate.
Qed.

(** ** Registration by the metaclass *)

Section Registration.
Import DatabaseType.
Variable cls : nat.

Implicit Types (st : Cls) (heap : gmap nat Attr) (attr : Attr)
  (class_dict : list (string * nat)) (addr : nat) (attrname : string).

Lemma alter_present (f : Attr -> Attr) addr attr (m : gmap nat Attr) :
  m !! addr = Some attr -> alter f addr m = <[addr := f attr]> m.
Proof.
  intros Hm. apply map_eq. intros j.
  rewrite lookup_alter, lookup_insert.
  case_decide; [subst; by rewrite Hm | reflexivity].
Qed.

Lemma alter_absent (f : Attr -> Attr) addr (m : gmap nat Attr) :
  m !! addr = None -> alter f addr m = m.
Proof.
  intros Hm. apply map_eq. intros j. rewrite lookup_alter.
  case_decide; [subst; by rewrite Hm | reflexivity].
Qed.

Lemma touch_kind attrname attr :
  is_Property (touch cls attrname attr) = is_Property attr
  /\ is_Collection (touch cls attrname attr) = is_Collection attr
  /\ is_ModelType (touch cls attrname attr) = is_ModelType attr.
Proof.
  destruct attr as [[] [] [] [m|] d]; repeat split.
Qed.

(** One visit, read as a change of the visited object and of each
    registry. *)
Lemma visit_eq st attrname addr :
  visit cls st (attrname, addr)
  = mkCls (alter (touch cls attrname) addr (objects st))
      (if has is_Property (objects st !! addr)
       then <[attrname := addr]> (_trol_properties st) else _trol_properties st)
      (if has is_Collection (objects st !! addr)
       then <[attrname := addr]> (_trol_collections st) else _trol_collections st)
      (if has is_ModelType (objects st !! addr)
       then <[attrname := addr]> (_trol_models st) else _trol_models st).
Proof.
  destruct st as [objs ps cs ms]. cbn [objects _trol_properties _trol_collections _trol_models].
  destruct (objs !! addr) as [attr|] eqn:Hat.
  - rewrite (alter_present _ _ _ _ Hat).
    destruct attr as [[] [] [] [m|] d];
      unfold visit, touch; cbn -[insert lookup];
      repeat (progress (rewrite ?Hat, ?lookup_insert_eq; cbn -[insert lookup]));
      rewrite ?insert_insert_eq; rewrite ?(insert_id _ _ _ Hat); reflexivity.
  - rewrite (alter_absent _ _ _ Hat). unfold visit. cbn -[insert lookup].
    repeat (progress (rewrite ?Hat; cbn -[insert lookup])). reflexivity.
Qed.

Lemma touch_all_kind (test : Attr -> bool) names attr :
  (forall attrname a, test (touch cls attrname a) = test a) ->
  test (touch_all cls names attr) = test attr.
Proof.
  intros Htest. revert attr.
  induction names as [|n l IH]; intros attr; [reflexivity|].
  cbn. unfold touch_all in IH. by rewrite IH, Htest.
Qed.

Lemma touch_name_set attrname attr m :
  _name attr = Some m -> _name (touch cls attrname attr) = Some m.
Proof. destruct attr as [[] [] [] [m'|] d]; cbn; congruence. Qed.

Lemma touch_name_unset attrname attr :
  _name attr = None ->
  is_Property attr || is_Collection attr = true ->
  _name (touch cls attrname attr) = Some attrname.
Proof. destruct attr as [[] [] [] [m'|] d]; cbn; congruence. Qed.

Lemma touch_name_other attrname attr :
  is_Property attr || is_Collection attr = false ->
  _name (touch cls attrname attr) = _name attr.
Proof. destruct attr as [[] [] [] [m'|] d]; cbn; congruence. Qed.

Lemma touch_database attrname attr :
  _trol_database (touch cls attrname attr)
  = if is_Collection attr || is_ModelType attr then Some cls
    else _trol_database attr.
Proof. destruct attr as [[] [] [] [m'|] d]; reflexivity. Qed.

Lemma touch_all_name_set names attr m :
  _name attr = Some m -> _name (touch_all cls names attr) = Some m.
Proof.
  revert attr. induction names as [|n l IH]; intros attr Hm; [exact Hm|].
  cbn. apply IH. by apply touch_name_set.
Qed.

Lemma touch_all_name_other names attr :
  is_Property attr || is_Collection attr = false ->
  _name (touch_all cls names attr) = _name attr.
Proof.
  revert attr. induction names as [|n l IH]; intros attr Hk; [reflexivity|].
  cbn. unfold touch_all in IH. rewrite IH.
  - by apply touch_name_other.
  - destruct (touch_kind n attr) as (-> & -> & _). exact Hk.
Qed.

Lemma touch_all_database names attr :
  names <> [] ->
  _trol_database (touch_all cls names attr)
  = if is_Collection attr || is_ModelType attr then Some cls
    else _trol_database attr.
Proof.
  revert attr. induction names as [|n l IH]; intros attr Hne; [done|].
  cbn. destruct l as [|n' l'].
  - apply touch_database.
  - unfold touch_all in IH. rewrite IH by done.
    destruct (touch_kind n attr) as (_ & -> & ->).
    rewrite touch_database. by destruct (_ || _).
Qed.

(** The objects after the loop: each one visited under its names. *)
Lemma loop_objects class_dict st addr :
  objects (fold_left (visit cls) class_dict st) !! addr
  = touch_all cls (names_of addr class_dict) <$> (objects st !! addr).
Proof.
  revert st. induction class_dict as [|[n x] d IH]; intros st.
  - cbn. by destruct (objects st !! addr).
  - cbn [fold_left]. rewrite IH, visit_eq. cbn [objects].
    rewrite lookup_alter. unfold names_of. rewrite filter_cons. cbn [snd].
    destruct (decide (x = addr)) as [->|Hne].
    + by destruct (objects st !! addr).
    + reflexivity.
Qed.

Lemma register_objects class_dict heap addr :
  objects (register cls class_dict heap) !! addr
  = touch_all cls (names_of addr class_dict) <$> (heap !! addr).
Proof. apply loop_objects. Qed.

Lemma register_has (test : Attr -> bool) class_dict heap addr :
  (forall attrname a, test (touch cls attrname a) = test a) ->
  has test (objects (register cls class_dict heap) !! addr) = has test (heap !! addr).
Proof.
  intros Htest. rewrite register_objects.
  destruct (heap !! addr) as [attr|]; [|reflexivity].
  cbn. by apply touch_all_kind.
Qed.

Lemma names_of_elem attrname addr class_dict :
  attrname ∈ names_of addr class_dict <-> (attrname, addr) ∈ class_dict.
Proof.
  unfold names_of. rewrite list_elem_of_fmap. split.
  - intros ([n x] & -> & Hin). apply list_elem_of_filter in Hin as [Hx Hin].
    cbn in Hx. by subst.
  - intros Hin. exists (attrname, addr). split; [reflexivity|].
    by apply list_elem_of_filter.
Qed.

Lemma names_of_unbound addr class_dict :
  addr ∉ class_dict.*2 -> names_of addr class_dict = [].
Proof.
  intros Hno. destruct (names_of addr class_dict) as [|n l] eqn:Hn; [reflexivity|].
  exfalso. apply Hno.
  assert (Hin : n ∈ names_of addr class_dict) by (rewrite Hn; left).
  apply names_of_elem in Hin. apply list_elem_of_fmap. by exists (n, addr).
Qed.

(** A registry holds the names bound to the objects that pass its test. *)
Lemma registry_lookup (proj : Cls -> gmap string nat) (test : Attr -> bool)
    class_dict heap attrname addr :
  (forall st n x,
     proj (visit cls st (n, x))
     = if has test (objects st !! x) then <[n := x]> (proj st) else proj st) ->
  (forall n a, test (touch cls n a) = test a) ->
  proj (mkCls heap ∅ ∅ ∅) = ∅ ->
  NoDup class_dict.*1 ->
  proj (register cls class_dict heap) !! attrname = Some addr
  <-> (attrname, addr) ∈ class_dict /\ has test (heap !! addr) = true.
Proof.
  intros Hvisit Htest Hempty.
  induction class_dict as [|[n x] d IH] using rev_ind; intros Hnd.
  - unfold register. cbn. rewrite Hempty, lookup_empty.
    split; [done|]. intros [Hin _]. by apply elem_of_nil in Hin.
  - rewrite fmap_app in Hnd. apply NoDup_app in Hnd as (Hnd & Hfresh & _).
    specialize (IH Hnd).
    assert (Hn : n ∉ d.*1).
    { intros Hin. apply (Hfresh n Hin). cbn. left. }
    unfold register. rewrite fold_left_app. cbn [fold_left].
    rewrite Hvisit. fold (register cls d heap).
    rewrite (register_has test d heap x Htest).
    rewrite elem_of_app, list_elem_of_singleton.
    destruct (has test (heap !! x)) eqn:Hx.
    + rewrite lookup_insert. case_decide as Heq.
      * subst n. split.
        -- intros [= ->]. split; [by right | exact Hx].
        -- intros [[Hin | [= ->]] _]; [|reflexivity].
           exfalso. apply Hn. apply list_elem_of_fmap. by exists (attrname, addr).
      * rewrite IH. split.
        -- intros [Hin Ht]. split; [by left | exact Ht].
        -- intros [[Hin | [= -> ->]] Ht]; [by split | done].
    + rewrite IH. split.
      * intros [Hin Ht]. split; [by left | exact Ht].
      * intros [[Hin | [= -> ->]] Ht]; [by split | congruence].
Qed.

Lemma touch_all_plain names attr :
  is_Property attr = false -> is_Collection attr = false ->
  is_ModelType attr = false ->
  touch_all cls names attr = attr.
Proof.
  intros Hp Hc Hm. induction names as [|n l IH]; [reflexivity|].
  cbn. unfold touch_all in IH.
  replace (touch cls n attr) with attr; [exact IH|].
  destruct attr as [p c m nm d]. cbn in Hp, Hc, Hm. by subst.
Qed.

(** X12: after the loop each registry holds exactly the attribute names
    of the class body bound to an object that passes the registry's
    [isinstance] test, each name with the object it is bound to. *)
Theorem registries_hold_declared_attributes class_dict heap attrname addr :
  NoDup class_dict.*1 ->
  (_trol_properties (register cls class_dict heap) !! attrname = Some addr
   <-> (attrname, addr) ∈ class_dict /\ has is_Property (heap !! addr) = true)
  /\ (_trol_collections (register cls class_dict heap) !! attrname = Some addr
      <-> (attrname, addr) ∈ class_dict /\ has is_Collection (heap !! addr) = true)
  /\ (_trol_models (register cls class_dict heap) !! attrname = Some addr
      <-> (attrname, addr) ∈ class_dict /\ has is_ModelType (heap !! addr) = true).
Proof.
  intros Hnd.
  split_and!; apply registry_lookup; try done;
    try (intros; by rewrite visit_eq);
    intros n a; by destruct (touch_kind n a) as (? & ? & ?).
Qed.

(** X13: after the loop every property or collection bound in the class
    body has a name.  A name given before is kept; an object without one
    takes the first attribute name it is bound under, so an object bound
    under two names is not renamed by the second. *)
Theorem registration_names_every_binding class_dict heap attrname addr attr :
  (attrname, addr) ∈ class_dict ->
  heap !! addr = Some attr ->
  is_Property attr || is_Collection attr = true ->
  exists attr',
    objects (register cls class_dict heap) !! addr = Some attr'
    /\ _name attr'
       = match _name attr with
         | Some given => Some given
         | None => head (names_of addr class_dict)
         end
    /\ is_Some (_name attr').
Proof.
  intros Hin Hat Hkind.
  exists (touch_all cls (names_of addr class_dict) attr).
  rewrite register_objects, Hat. split; [reflexivity|].
  destruct (_name attr) as [given|] eqn:Hname.
  - rewrite (touch_all_name_set _ _ given Hname). by split.
  - apply names_of_elem in Hin.
    destruct (names_of addr class_dict) as [|n l]; [by apply elem_of_nil in Hin|].
    cbn [touch_all fold_left head].
    assert (Hn : _name (touch cls n attr) = Some n) by by apply touch_name_unset.
    pose proof (touch_all_name_set l _ n Hn) as Hall. unfold touch_all in Hall.
    rewrite Hall. by split.
Qed.

(** X14: after the loop every collection and model class bound in the
    class body refers back to the class, and an object that is neither,
    a plain property among them, has the [_trol_database] it had. *)
Theorem registration_links_database class_dict heap attrname addr attr :
  (attrname, addr) ∈ class_dict ->
  heap !! addr = Some attr ->
  exists attr',
    objects (register cls class_dict heap) !! addr = Some attr'
    /\ _trol_database attr'
       = if is_Collection attr || is_ModelType attr then Some cls
         else _trol_database attr.
Proof.
  intros Hin Hat.
  exists (touch_all cls (names_of addr class_dict) attr).
  rewrite register_objects, Hat. split; [reflexivity|].
  apply touch_all_database. apply names_of_elem in Hin.
  intros Hnil. rewrite Hnil in Hin. by apply elem_of_nil in Hin.
Qed.

(** X15: the loop changes nothing else: an object the class body does
    not bind is as it was, so is a bound object that is no property,
    collection or model class, and no object changes its kind. *)
Theorem registration_leaves_rest class_dict heap addr :
  (addr ∉ class_dict.*2 ->
   objects (register cls class_dict heap) !! addr = heap !! addr)
  /\ (forall attr,
        heap !! addr = Some attr ->
        is_Property attr = false -> is_Collection attr = false ->
        is_ModelType attr = false ->
        objects (register cls class_dict heap) !! addr = Some attr)
  /\ has is_Property (objects (register cls class_dict heap) !! addr)
     = has is_Property (heap !! addr)
  /\ has is_Collection (objects (register cls class_dict heap) !! addr)
     = has is_Collection (heap !! addr)
  /\ has is_ModelType (objects (register cls class_dict heap) !! addr)
     = has is_ModelType (heap !! addr).
Proof.
  split_and!.
  - intros Hno. rewrite register_objects, (names_of_unbound _ _ Hno).
    by destruct (heap !! addr).
  - intros attr Hat Hp Hc Hm. rewrite register_objects, Hat. cbn.
    by rewrite touch_all_plain.
  - apply register_has. intros n a. by destruct (touch_kind n a) as (? & ? & ?).
  - apply register_has. intros n a. by destruct (touch_kind n a) as (? & ? & ?).
  - apply register_has. intros n a. by destruct (touch_kind n a) as (? & ? & ?).
Qed.

End Registration.

(** ** Construction *)

Section Constructed.
Context {S : Type} `{RemoteStore S}.

Implicit Types (obj : Owner S) (v : PyVal).



End Constructed.

(** * The binding at work *)

(** The composition of the specification's example. *)
Example key_user42 : Property.key_of score user42 = "user:42:score".
Proof. reflexivity. Qed.

Example key_no_owner_key : Property.key_of score holder = "score".
Proof. reflexivity. Qed.

(** A first read of a stored key fetches it; of a missing key it raises. *)
Example read_stored : fst (Property.__get__ score holder) = Ok (VStr "7").
Proof. vm_compute. reflexivity. Qed.

Example read_missing :
  fst (Property.__get__ score (fresh_owner (Some "a") stored))
  = Raise (RedisKeyError "a:score").
Proof. vm_compute. reflexivity. Qed.

(** With a local value and no alwaysfetch, a read stays local. *)
Example read_local :
  Property.__get__ score user42 = (Ok (VStr "9"), user42).
Proof. vm_compute. reflexivity. Qed.

Lemma C1_read_after_delete_returns_none_witness :
  truthy (fst (store_delete (Property.key_of score holder) (db (obj_redis holder))))
  = true
  /\ fst (Property.delete score holder) = Ok (VInt 1)
  /\ fst (Property.__get__ score (snd (Property.delete score holder))) = Ok VNone
  /\ fst (Property.__get__ score (snd (Property.delete score holder)))
     <> Raise (RedisKeyError "score").
Proof.
  assert (Hok : truthy (fst (store_delete (Property.key_of score holder)
                                 (db (obj_redis holder)))) = true)
    by (vm_compute; reflexivity).
  destruct (C1_read_after_delete_returns_none score holder
              Hok eq_refl eq_refl) as [Hd Hg].
  split; [exact Hok|].
  split; [rewrite Hd; vm_compute; reflexivity|].
  rewrite Hg. split; [reflexivity | discriminate].
Defined.

Lemma C5_fetch_overwrites_idempotent_witness :
  fst (store_get "user:42:score" (snd (store_get "user:42:score" stored)))
  = fst (store_get "user:42:score" stored)
  /\ fst (Property.fetch score (snd (Property.fetch score user42)))
     = Ok (VStr "7")
  /\ obj_dict (snd (Property.fetch score (snd (Property.fetch score user42))))
     = obj_dict (snd (Property.fetch score user42)).
Proof.
  assert (Hsame :
    fst (store_get "user:42:score" (snd (store_get "user:42:score" stored)))
    = fst (store_get "user:42:score" stored)) by reflexivity.
  split; [exact Hsame|].
  destruct (proj2 (C5_fetch_overwrites_idempotent score user42) Hsame)
    as [Hv Hd].
  split; [rewrite Hv; vm_compute; reflexivity | exact Hd].
Defined.

Lemma C7_failed_delete_keeps_cache_witness :
  truthy (fst (store_delete (Property.key_of score offline) (db (obj_redis offline))))
  = false
  /\ obj_dict (snd (Property.delete score offline)) = obj_dict offline
  /\ fst (Property.delete score offline) = Ok (VBool false).
Proof.
  assert (Hno : truthy (fst (store_delete (Property.key_of score offline)
                                 (db (obj_redis offline)))) = false)
    by reflexivity.
  split; [exact Hno|].
  destruct (C7_failed_delete_keeps_cache score offline Hno) as [Hd Hr].
  split; [exact Hd | rewrite Hr; reflexivity].
Defined.

Lemma C10_commit_after_delete_writes_none_witness :
  truthy (fst (store_delete (Property.key_of score user42) (db (obj_redis user42))))
  = true
  /\ slot score (snd (Property.delete score user42)) = Some VNone
  /\ fst (Property.commit score (snd (Property.delete score user42)))
     = Ok (VBool true)
  /\ calls (obj_redis (snd (Property.commit score (snd (Property.delete score user42)))))
     = [CDelete "user:42:score"; CSet "user:42:score" (tag_serialize VNone)]
  /\ db (obj_redis (snd (Property.commit score (snd (Property.delete score user42)))))
     !! "user:42:score" = Some (tag_serialize VNone).
Proof.
  assert (Hok : truthy (fst (store_delete (Property.key_of score user42)
                                 (db (obj_redis user42)))) = true)
    by (vm_compute; reflexivity).
  destruct (C10_commit_after_delete_writes_none score user42 Hok)
    as (Hs & _ & Hc).
  split; [exact Hok|].
  split; [exact Hs|].
  rewrite Hc. repeat split; vm_compute; reflexivity.
Defined.

(** Two bindings on one owner. *)
Lemma other_binding_undisturbed_witness :
  Property.name score <> Property.name level
  /\ cached level (snd (Property.__set__ score (VStr "5") user42))
     = cached level user42
  /\ cached level (snd (Property.delete score user42)) = cached level user42.
Proof.
  assert (Hne : Property.name score <> Property.name level)
    by (vm_compute; discriminate).
  destruct (other_binding_undisturbed score level (VStr "5") user42 Hne)
    as (Hs & _ & _ & _ & Hd & _).
  split; [exact Hne|]. split; [exact Hs | exact Hd].
Defined.

Lemma invalidate_drops_uncommitted_witness :
  Property.autocommit_test unsaved user42 = false
  /\ fst (Property.commit unsaved
            (snd (Property.invalidate unsaved
                    (snd (Property.__set__ unsaved (VStr "5") user42)))))
     = Ok (VBool true)
  /\ obj_redis (snd (Property.invalidate unsaved
                       (snd (Property.__set__ unsaved (VStr "5") user42))))
     = obj_redis user42.
Proof.
  assert (Hac : Property.autocommit_test unsaved user42 = false) by reflexivity.
  destruct (invalidate_drops_uncommitted unsaved (VStr "5") user42 Hac)
    as [Hc Hr].
  split; [exact Hac|]. split; [rewrite Hc; reflexivity | exact Hr].
Defined.

Lemma alwaysfetch_reads_remote_each_time_witness :
  Property.alwaysfetch_test eager user42 = true
  /\ calls (obj_redis (snd (Property.__get__ eager
                              (snd (Property.__get__ eager user42)))))
     = [CGet "user:42:score"; CGet "user:42:score"].
Proof.
  assert (Haf : Property.alwaysfetch_test eager user42 = true) by reflexivity.
  destruct (alwaysfetch_reads_remote_each_time eager user42 Haf) as [_ H2].
  split; [exact Haf | exact H2].
Defined.

Lemma uncommitted_write_lost_under_alwaysfetch_witness :
  Property.autocommit_test unsaved user42 = false
  /\ Property.alwaysfetch_test unsaved user42 = true
  /\ fst (Property.__get__ unsaved
            (snd (Property.__set__ unsaved (VStr "5") user42)))
     = Ok (VStr "7").
Proof.
  assert (Hac : Property.autocommit_test unsaved user42 = false) by reflexivity.
  assert (Haf : Property.alwaysfetch_test unsaved user42 = true) by reflexivity.
  destruct (uncommitted_write_lost_under_alwaysfetch unsaved (VStr "5") user42
              Hac Haf) as [Hr _].
  split; [exact Hac|]. split; [exact Haf|].
  rewrite Hr. vm_compute. reflexivity.
Defined.

(** The store refuses the [set]; the read still returns what was
    written. *)
Lemma read_your_write_locally_witness :
  Property.alwaysfetch_test score offline = false
  /\ is_null (VStr "5") = false
  /\ fst (Property.__get__ score (snd (Property.__set__ score (VStr "5") offline)))
     = Ok (VStr "5")
  /\ calls (obj_redis (snd (Property.__set__ score (VStr "5") offline)))
     = [CSet "score" (tag_serialize (VStr "5"))].
Proof.
  assert (Haf : Property.alwaysfetch_test score offline = false) by reflexivity.
  assert (Hn : is_null (VStr "5") = false) by reflexivity.
  pose proof (read_your_write_locally score (VStr "5") offline Haf Hn) as Hg.
  split; [exact Haf|]. split; [exact Hn|].
  split; [rewrite Hg; reflexivity | vm_compute; reflexivity].
Defined.

Lemma committed_write_is_fetched_witness :
  Property.autocommit_test score user42 = true
  /\ obj_key reader42 = obj_key user42
  /\ fst (Property.fetch score reader42) = Ok (VStr "5")
  /\ cached score (snd (Property.fetch score reader42)) = VStr "5".
Proof.
  assert (Hac : Property.autocommit_test score user42 = true) by reflexivity.
  assert (Hn : is_null (VStr "5") = false) by reflexivity.
  assert (Hrt : Property.deserialize score (Property.serialize score (VStr "5"))
                = VStr "5") by reflexivity.
  assert (Hlaw : forall k bs (s : gmap string bytes),
            fst (store_get k (snd (store_set k bs s))) = Some bs)
    by (intros; simpl; apply lookup_insert_eq).
  assert (Hkey : obj_key reader42 = obj_key user42) by reflexivity.
  destruct (committed_write_is_fetched score (VStr "5") user42 reader42
              Hac Hn Hrt Hlaw Hkey eq_refl) as [Hf Hc].
  split; [exact Hac|]. split; [exact Hkey|]. split; [exact Hf | exact Hc].
Defined.

Lemma delete_then_fetch_finds_nothing_witness :
  fst (store_get "score" (snd (store_delete "score" stored))) = None
  /\ Property.alwaysfetch_test eager holder = true
  /\ fst (Property.fetch eager (snd (Property.delete eager holder))) = Ok VNull
  /\ fst (Property.__get__ eager (snd (Property.delete eager holder)))
     = Raise (RedisKeyError "score").
Proof.
  assert (Hgone : fst (store_get (Property.key_of eager holder)
                    (snd (store_delete (Property.key_of eager holder)
                            (db (obj_redis holder))))) = None)
    by (vm_compute; reflexivity).
  assert (Haf : Property.alwaysfetch_test eager holder = true) by reflexivity.
  destruct (delete_then_fetch_finds_nothing eager holder Hgone Haf)
    as (Hf & _ & Hg).
  split; [exact Hgone|]. split; [exact Haf|]. split; [exact Hf | exact Hg].
Defined.

Lemma exists_asks_store_only_witness :
  slot score holder = None
  /\ fst (Property.exists_ score holder) = Ok (VInt 1)
  /\ slot score (snd (Property.exists_ score holder)) = None
  /\ slot score (snd (Property.commit score holder)) = Some VNull.
Proof.
  assert (Hs : slot score holder = None) by reflexivity.
  destruct (exists_asks_store_only score holder) as (Hr & _ & _ & _ & Hslot).
  destruct (Hslot Hs) as [He Hc].
  split; [exact Hs|]. split; [rewrite Hr; vm_compute; reflexivity|].
  split; [exact He | exact Hc].
Defined.

Lemma mangle_keeps_names_apart_witness :
  Property.mangle "score" = Property.mangle "score"
  /\ "score" = "score"
  /\ Property.mangle "score" <> Property.mangle "level".
Proof.
  destruct (mangle_keeps_names_apart "score" "score") as [[Hto _] _].
  destruct (mangle_keeps_names_apart "score" "level") as [[Hne _] _].
  split; [reflexivity|]. split; [exact (Hto eq_refl)|].
  intros Heq. specialize (Hne Heq). discriminate Hne.
Defined.

(** The class body of the examples, registered for the class at 9. *)
Lemma registries_hold_declared_attributes_witness :
  NoDup body_dict.*1
  /\ DatabaseType._trol_properties (DatabaseType.register 9 body_dict body_heap)
     !! "points" = Some 1
  /\ DatabaseType._trol_collections (DatabaseType.register 9 body_dict body_heap)
     !! "labels" = Some 2
  /\ DatabaseType._trol_models (DatabaseType.register 9 body_dict body_heap)
     !! "User" = Some 3.
Proof.
  assert (Hnd : NoDup body_dict.*1) by compute_done.
  assert (Hin1 : ("points", 1) ∈ body_dict)
    by compute_done.
  assert (Hin2 : ("labels", 2) ∈ body_dict)
    by compute_done.
  assert (Hin3 : ("User", 3) ∈ body_dict)
    by compute_done.
  destruct (registries_hold_declared_attributes 9 body_dict body_heap "points" 1 Hnd)
    as ([_ Hp] & _ & _).
  destruct (registries_hold_declared_attributes 9 body_dict body_heap "labels" 2 Hnd)
    as (_ & [_ Hc] & _).
  destruct (registries_hold_declared_attributes 9 body_dict body_heap "User" 3 Hnd)
    as (_ & _ & [_ Hm]).
  split; [exact Hnd|].
  split; [apply Hp; split; [exact Hin1 | reflexivity]|].
  split; [apply Hc; split; [exact Hin2 | reflexivity]|].
  apply Hm; split; [exact Hin3 | reflexivity].
Defined.

Lemma registration_names_every_binding_witness :
  ("points", 1) ∈ body_dict
  /\ exists attr',
       DatabaseType.objects (DatabaseType.register 9 body_dict body_heap) !! 1
       = Some attr'
       /\ DatabaseType._name attr' = Some "score".
Proof.
  assert (Hin : ("points", 1) ∈ body_dict)
    by compute_done.
  destruct (registration_names_every_binding 9 body_dict body_heap "points" 1
              (DatabaseType.mkAttr true false false None None)
              Hin eq_refl eq_refl) as (attr' & Hat & Hname & _).
  split; [exact Hin|]. exists attr'. split; [exact Hat | exact Hname].
Defined.

Lemma registration_links_database_witness :
  ("labels", 2) ∈ body_dict
  /\ exists attr',
       DatabaseType.objects (DatabaseType.register 9 body_dict body_heap) !! 2
       = Some attr'
       /\ DatabaseType._trol_database attr' = Some 9.
Proof.
  assert (Hin : ("labels", 2) ∈ body_dict)
    by compute_done.
  destruct (registration_links_database 9 body_dict body_heap "labels" 2
              (DatabaseType.mkAttr false true false (Some "tags") None)
              Hin eq_refl) as (attr' & Hat & Hdb).
  split; [exact Hin|]. exists attr'. split; [exact Hat | exact Hdb].
Defined.

Lemma registration_leaves_rest_witness :
  body_heap !! 4 = Some (DatabaseType.mkAttr false false false None None)
  /\ DatabaseType.objects (DatabaseType.register 9 body_dict body_heap) !! 4
     = Some (DatabaseType.mkAttr false false false None None)
  /\ (7 ∉ body_dict.*2)
  /\ DatabaseType.objects (DatabaseType.register 9 body_dict body_heap) !! 7
     = body_heap !! 7.
Proof.
  assert (Hat : body_heap !! 4 = Some (DatabaseType.mkAttr false false false None None))
    by reflexivity.
  assert (Hno : 7 ∉ body_dict.*2)
    by compute_done.
  destruct (registration_leaves_rest 9 body_dict body_heap 4) as (_ & Hplain & _).
  destruct (registration_leaves_rest 9 body_dict body_heap 7) as (Hout & _).
  split; [exact Hat|].
  split; [exact (Hplain _ Hat eq_refl eq_refl eq_refl)|].
  split; [exact Hno | exact (Hout Hno)].
Defined.

